(** * Schema operations of the Gravitino Python client

    A shallow embedding of
    [clients/client-python/gravitino/catalog/base_schema_catalog.py]
    (class [BaseSchemaCatalog]) and the properties of its five schema
    operations: [list_schemas], [create_schema], [load_schema],
    [alter_schema] and [drop_schema].

    Python methods become computations in an error-over-state monad: the
    state holds the client object, the requests handed to the REST client
    and the warnings logged; a raised exception is the left injection, and
    the state reached when it was raised is kept, as in Python. *)

From Stdlib Require Import String Ascii List Bool Arith Lia.
From ExtLib Require Import Structures.Monad Structures.MonadState Structures.MonadExc.
From ExtLib Require Import Data.Monads.StateMonad Data.Monads.EitherMonad.
Import ListNotations.
Import MonadNotation.
Local Open Scope monad_scope.
Local Open Scope string_scope.

(** ** Exceptions *)

(** The exceptions the module raises itself, those of the value types it
    calls, and [Raised cls msg] for an exception of class [cls] coming from
    a collaborator (transport, codec, server-signalled conditions such as
    NoSuchSchemaException or NonEmptySchemaException).  [KeyboardInterrupt]
    stands for the classes that derive from BaseException only, which
    [except Exception] does not catch. *)
Inductive BaseException : Type :=
| NameError (name : string)
| ValueError (msg : string)
| IndexError (msg : string)
| IllegalNamespaceException (msg : string)
| IllegalNameIdentifierException (msg : string)
| Raised (cls : string) (msg : string)
| KeyboardInterrupt.

Definition is_Exception (e : BaseException) : bool :=
  match e with
  | KeyboardInterrupt => false
  | _ => true
  end.

(** ** Value types *)

(** A namespace is its ordered sequence of levels. *)
Definition Namespace : Type := list string.

Record NameIdentifier : Type := mkNameIdentifier {
  ident_namespace : Namespace;
  ident_name : string
}.

Record AuditDTO : Type := mkAuditDTO {
  creator : option string;
  create_time : option string;
  last_modifier : option string;
  last_modified_time : option string
}.

(** The schema object carried by a single-schema response. *)
Record Schema : Type := mkSchema {
  schema_name_of : string;
  schema_comment : option string;
  schema_properties : option (list (string * string));
  schema_audit : option AuditDTO
}.

(** [SchemaChange]: the two declared variants, and [OtherChange cls] for an
    instance of any other class [cls] handed in as a change. *)
Inductive SchemaChange : Type :=
| SetProperty (property value : string)
| RemoveProperty (property : string)
| OtherChange (cls : string).

Inductive SchemaUpdateRequest : Type :=
| SetSchemaPropertyRequest (property value : string)
| RemoveSchemaPropertyRequest (property : string).

Record SchemaCreateRequest : Type := mkSchemaCreateRequest {
  create_name : string;
  create_comment : option string;
  create_properties : option (list (string * string))
}.

Record SchemaUpdatesRequest : Type := mkSchemaUpdatesRequest {
  updates : list SchemaUpdateRequest
}.

Record EntityListResponse : Type := mkEntityListResponse {
  list_code : nat;
  identifiers : list NameIdentifier
}.

Record SchemaResponse : Type := mkSchemaResponse {
  schema_code : nat;
  schema : Schema
}.

Record DropResponse : Type := mkDropResponse {
  drop_code : nat;
  dropped : bool
}.

(** ** The REST client *)

Record Response : Type := mkResponse { body : string }.

Inductive Verb : Type := GET | POST | PUT | DELETE.

Inductive Payload : Type :=
| NoPayload
| CreatePayload (req : SchemaCreateRequest)
| UpdatesPayload (req : SchemaUpdatesRequest).

(** One call handed to the REST client: verb, path, [json=] and [params=]. *)
Record Request : Type := mkRequest {
  verb : Verb;
  path : string;
  json : Payload;
  params : list (string * string)
}.

(** [HTTPClient]: the transport, which answers a request with a response or
    raises. *)
Module HTTPClient.
Record t : Type := mk {
  get : string -> BaseException + Response;
  post : string -> SchemaCreateRequest -> BaseException + Response;
  put : string -> SchemaUpdatesRequest -> BaseException + Response;
  delete : string -> list (string * string) -> BaseException + Response
}.
End HTTPClient.

(** The fields [CatalogDTO.__init__] stores. *)
Record CatalogDTO : Type := mkCatalogDTO {
  _name : string;
  _type : string;
  _provider : option string;
  _comment : option string;
  _properties : option (list (string * string));
  _audit : option AuditDTO
}.

(** The instance attributes of a [BaseSchemaCatalog]. *)
Record BaseSchemaCatalog : Type := mkBaseSchemaCatalog {
  catalog_dto : CatalogDTO;
  namespace : Namespace;
  schema_namespace : Namespace;
  rest_client : HTTPClient.t
}.

(** ** The codec and identifier rendering

    The request and response classes of [gravitino.dto] and
    [NameIdentifier.__str__] are imported by the module, not defined in it:
    their [validate], [from_json] and [str] are parameters of the
    development. *)
Record Codec : Type := mkCodec {
  SchemaCreateRequest_validate : SchemaCreateRequest -> BaseException + unit;
  SchemaUpdatesRequest_validate : SchemaUpdatesRequest -> BaseException + unit;
  EntityListResponse_from_json : string -> BaseException + EntityListResponse;
  EntityListResponse_validate : EntityListResponse -> BaseException + unit;
  SchemaResponse_from_json : string -> BaseException + SchemaResponse;
  SchemaResponse_validate : SchemaResponse -> BaseException + unit;
  DropResponse_from_json : string -> BaseException + DropResponse;
  DropResponse_validate : DropResponse -> BaseException + unit;
  NameIdentifier_str : NameIdentifier -> string
}.

(** ** Namespace and identifier helpers *)

(** Modelled from the spec: [Namespace.level], defined in
    [gravitino.namespace] and not in this module.  A namespace is an ordered
    sequence of string levels; a position past its end has no level and the
    accessor raises, as indexing a Python sequence does. *)
Definition Namespace_level (ns : Namespace) (pos : nat) : BaseException + string :=
  match nth_error ns pos with
  | Some l => inr l
  | None => inl (IndexError "Invalid level position")
  end.

(** Modelled from the spec: [Namespace.of], defined in
    [gravitino.namespace]; it builds the namespace whose levels are its
    arguments, in order. *)
Definition Namespace_of (levels : list string) : Namespace := levels.

(** Modelled from the spec: [Namespace.check_schema], defined in
    [gravitino.namespace].  A schema namespace has exactly 2 levels
    (metalake, catalog); any other level count fails with the
    invalid-namespace error. *)
Definition Namespace_check_schema (ns : Namespace) : BaseException + unit :=
  if Nat.eqb (List.length ns) 2 then inr tt
  else inl (IllegalNamespaceException
              "Schema namespace must be non-null and have 2 levels").

(** ** Python names and objects *)

(** The objects a module-level name can denote here: a module-level object
    (an import, [logger], a class, a builtin) or a name identifier. *)
Inductive PyObject : Type :=
| PyGlobal (name : string)
| PyNameIdentifier (i : NameIdentifier).

(** Names bound at module level: the imports, [logger] and the class. *)
Definition module_globals : list string :=
  [ "logging"; "Dict"; "List"; "Catalog"; "Schema"; "SchemaChange";
    "SupportsSchemas"; "AuditDTO"; "CatalogDTO"; "SchemaCreateRequest";
    "SchemaUpdateRequest"; "SchemaUpdatesRequest"; "DropResponse";
    "EntityListResponse"; "SchemaResponse"; "NameIdentifier"; "Namespace";
    "HTTPClient"; "logger"; "BaseSchemaCatalog" ].

(** The names of Python's [builtins] module: functions, constants and the
    exception classes. *)
Definition builtins : list string :=
  [ "abs"; "aiter"; "all"; "anext"; "any"; "ascii"; "bin"; "bool";
    "breakpoint"; "bytearray"; "bytes"; "callable"; "chr"; "classmethod";
    "compile"; "complex"; "delattr"; "dict"; "dir"; "divmod"; "enumerate";
    "eval"; "exec"; "filter"; "float"; "format"; "frozenset"; "getattr";
    "globals"; "hasattr"; "hash"; "help"; "hex"; "id"; "input"; "int";
    "isinstance"; "issubclass"; "iter"; "len"; "list"; "locals"; "map";
    "max"; "memoryview"; "min"; "next"; "object"; "oct"; "open"; "ord";
    "pow"; "print"; "property"; "range"; "repr"; "reversed"; "round";
    "set"; "setattr"; "slice"; "sorted"; "staticmethod"; "str"; "sum";
    "super"; "tuple"; "type"; "vars"; "zip"; "__import__";
    "True"; "False"; "None"; "Ellipsis"; "NotImplemented"; "__debug__";
    "BaseException"; "Exception"; "ArithmeticError"; "AssertionError";
    "AttributeError"; "BlockingIOError"; "BrokenPipeError"; "BufferError";
    "ChildProcessError"; "ConnectionAbortedError"; "ConnectionError";
    "ConnectionRefusedError"; "ConnectionResetError"; "EOFError";
    "EnvironmentError"; "FileExistsError"; "FileNotFoundError";
    "FloatingPointError"; "GeneratorExit"; "IOError"; "ImportError";
    "IndentationError"; "IndexError"; "InterruptedError";
    "IsADirectoryError"; "KeyError"; "KeyboardInterrupt"; "LookupError";
    "MemoryError"; "ModuleNotFoundError"; "NameError";
    "NotADirectoryError"; "NotImplementedError"; "OSError";
    "OverflowError"; "PermissionError"; "ProcessLookupError";
    "RecursionError"; "ReferenceError"; "RuntimeError"; "StopAsyncIteration";
    "StopIteration"; "SyntaxError"; "SystemError"; "SystemExit"; "TabError";
    "TimeoutError"; "TypeError"; "UnboundLocalError"; "UnicodeDecodeError";
    "UnicodeEncodeError"; "UnicodeError"; "UnicodeTranslateError";
    "ValueError"; "ZeroDivisionError"; "Warning"; "DeprecationWarning";
    "FutureWarning"; "ImportWarning"; "PendingDeprecationWarning";
    "ResourceWarning"; "RuntimeWarning"; "SyntaxWarning"; "UnicodeWarning";
    "UserWarning"; "BytesWarning"; "EncodingWarning" ].

(** The local variables of [drop_schema]: its parameters and the names its
    body assigns.  Python fixes at compile time that every other name in
    the body is loaded from the module globals, then from the builtins. *)
Definition drop_schema_local_names : list string :=
  [ "self"; "schema_name"; "cascade"; "params"; "resp"; "drop_resp" ].

(** Loading a non-local name: module globals, then builtins; a name bound
    in neither raises [NameError]. *)
Definition load_global (x : string) : BaseException + PyObject :=
  if existsb (String.eqb x) module_globals then inr (PyGlobal x)
  else if existsb (String.eqb x) builtins then inr (PyGlobal x)
  else inl (NameError x).

(** Modelled from the spec: [NameIdentifier.check_schema], defined in
    [gravitino.name_identifier] and not in this module.  It is the
    schema-identifier shape check: the argument must be an
    identifier whose namespace is a schema namespace (2 levels); otherwise
    it fails with the invalid-identifier error. *)
Definition NameIdentifier_check_schema (o : PyObject) : BaseException + unit :=
  match o with
  | PyNameIdentifier i =>
      if Nat.eqb (List.length (ident_namespace i)) 2 then inr tt
      else inl (IllegalNameIdentifierException
                  "Schema namespace must be non-null and have 2 levels")
  | _ => inl (IllegalNameIdentifierException
                "Schema identifier must not be null")
  end.

(** Python's [str] of a bool. *)
Definition str_bool (b : bool) : string := if b then "True" else "False".

(** ** The monad of method bodies *)

(** What a call can touch: the client object itself, the requests handed to
    the REST client so far (oldest first), and the warnings logged. *)
Record World : Type := mkWorld {
  self : BaseSchemaCatalog;
  sent : list Request;
  warnings : list (string * PyObject)
}.

Definition Py : Type -> Type := eitherT BaseException (state World).

Definition run {A : Type} (c : Py A) (w : World) : (BaseException + A) * World :=
  runState (unEitherT c) w.

(** A pure step that returns or raises. *)
Definition liftE {A : Type} (r : BaseException + A) : Py A :=
  match r with
  | inl e => raise e
  | inr a => ret a
  end.

(** Reading an attribute of [self]. *)
Definition getattr_self {A : Type} (field : BaseSchemaCatalog -> A) : Py A :=
  w <- MonadState.get ;; ret (field (self w)).

Definition record_request (r : Request) : Py unit :=
  w <- MonadState.get ;;
  MonadState.put (mkWorld (self w) (sent w ++ [r]) (warnings w)).

(** [logger.warning(fmt, arg)]. *)
Definition logger_warning (fmt : string) (arg : PyObject) : Py unit :=
  w <- MonadState.get ;;
  MonadState.put (mkWorld (self w) (sent w) (warnings w ++ [(fmt, arg)])).

(** The four calls on the REST client.  The request counts as issued once
    the transport is entered, whether it then answers or raises. *)
Definition http_get (rc : HTTPClient.t) (p : string) : Py Response :=
  record_request (mkRequest GET p NoPayload []) ;;
  liftE (HTTPClient.get rc p).

Definition http_post (rc : HTTPClient.t) (p : string) (req : SchemaCreateRequest)
  : Py Response :=
  record_request (mkRequest POST p (CreatePayload req) []) ;;
  liftE (HTTPClient.post rc p req).

Definition http_put (rc : HTTPClient.t) (p : string) (req : SchemaUpdatesRequest)
  : Py Response :=
  record_request (mkRequest PUT p (UpdatesPayload req) []) ;;
  liftE (HTTPClient.put rc p req).

Definition http_delete (rc : HTTPClient.t) (p : string)
  (query : list (string * string)) : Py Response :=
  record_request (mkRequest DELETE p NoPayload query) ;;
  liftE (HTTPClient.delete rc p query).

(** [try: body except Exception: handler]. *)
Definition try_except_Exception {A : Type} (body handler : Py A) : Py A :=
  catch body (fun e => if is_Exception e then handler else raise e).

(** A list comprehension [[f(x) for x in xs]] whose [f] may raise: elements
    are mapped left to right and the first exception ends it. *)
Fixpoint list_comprehension {A B : Type} (f : A -> BaseException + B)
  (xs : list A) : BaseException + list B :=
  match xs with
  | [] => inr []
  | x :: xs' =>
      match f x with
      | inl e => inl e
      | inr y =>
          match list_comprehension f xs' with
          | inl e => inl e
          | inr ys => inr (y :: ys)
          end
      end
  end.

(** ** BaseSchemaCatalog *)

(** [__init__]: stores the catalog fields, the namespace, the derived schema
    namespace and the REST client. *)
Definition init (ns : Namespace) (name : string) (catalog_type : string)
  (provider comment : option string)
  (properties : option (list (string * string))) (audit : option AuditDTO)
  (rc : HTTPClient.t) : BaseException + BaseSchemaCatalog :=
  match Namespace_level ns 0 with
  | inl e => inl e
  | inr l0 =>
      inr (mkBaseSchemaCatalog
             (mkCatalogDTO name catalog_type provider comment properties audit)
             ns (Namespace_of [l0; name]) rc)
  end.

(** [format_schema_request_path] (static). *)
Definition format_schema_request_path (ns : Namespace) : BaseException + string :=
  match Namespace_level ns 0 with
  | inl e => inl e
  | inr level0 =>
      match Namespace_level ns 1 with
      | inl e => inl e
      | inr level1 =>
          inr ("api/metalakes/" ++ level0 ++ "/catalogs/" ++ level1 ++ "/schemas")
      end
  end.

(** [to_schema_update_request] (static). *)
Definition to_schema_update_request (change : SchemaChange)
  : BaseException + SchemaUpdateRequest :=
  match change with
  | SetProperty p v => inr (SetSchemaPropertyRequest p v)
  | RemoveProperty p => inr (RemoveSchemaPropertyRequest p)
  | OtherChange cls => inl (ValueError ("Unknown change type: " ++ cls))
  end.

Section Operations.

Variable codec : Codec.

(** [list_schemas]: check the schema namespace, GET the base path, parse
    and validate the entity list, return [str] of each identifier. *)
Definition list_schemas : Py (list string) :=
  ns <- getattr_self schema_namespace ;;
  liftE (Namespace_check_schema ns) ;;
  rc <- getattr_self rest_client ;;
  ns <- getattr_self schema_namespace ;;
  p <- liftE (format_schema_request_path ns) ;;
  resp <- http_get rc p ;;
  entity_list_response <- liftE (EntityListResponse_from_json codec (body resp)) ;;
  liftE (EntityListResponse_validate codec entity_list_response) ;;
  ret (map (NameIdentifier_str codec) (identifiers entity_list_response)).

(** [create_schema]: build and validate the create request, POST it to the
    base path, parse and validate the answer, return its schema. *)
Definition create_schema (schema_name : string) (comment : option string)
  (properties : option (list (string * string))) : Py Schema :=
  let req := mkSchemaCreateRequest schema_name comment properties in
  liftE (SchemaCreateRequest_validate codec req) ;;
  rc <- getattr_self rest_client ;;
  ns <- getattr_self schema_namespace ;;
  p <- liftE (format_schema_request_path ns) ;;
  resp <- http_post rc p req ;;
  schema_response <- liftE (SchemaResponse_from_json codec (body resp)) ;;
  liftE (SchemaResponse_validate codec schema_response) ;;
  ret (schema schema_response).

(** [load_schema]: GET the base path + / + schema name, parse and validate
    the answer, return its schema. *)
Definition load_schema (schema_name : string) : Py Schema :=
  rc <- getattr_self rest_client ;;
  ns <- getattr_self schema_namespace ;;
  p <- liftE (format_schema_request_path ns) ;;
  resp <- http_get rc (p ++ "/" ++ schema_name) ;;
  schema_response <- liftE (SchemaResponse_from_json codec (body resp)) ;;
  liftE (SchemaResponse_validate codec schema_response) ;;
  ret (schema schema_response).

(** [alter_schema]: map the changes to update requests, wrap and validate
    them, PUT them to the base path + / + schema name, parse and validate
    the answer, return its schema. *)
Definition alter_schema (schema_name : string) (changes : list SchemaChange)
  : Py Schema :=
  reqs <- liftE (list_comprehension to_schema_update_request changes) ;;
  let updates_request := mkSchemaUpdatesRequest reqs in
  liftE (SchemaUpdatesRequest_validate codec updates_request) ;;
  rc <- getattr_self rest_client ;;
  ns <- getattr_self schema_namespace ;;
  p <- liftE (format_schema_request_path ns) ;;
  resp <- http_put rc (p ++ "/" ++ schema_name) updates_request ;;
  schema_response <- liftE (SchemaResponse_from_json codec (body resp)) ;;
  liftE (SchemaResponse_validate codec schema_response) ;;
  ret (schema schema_response).

(** The body of the [try] block of [drop_schema]: DELETE the base path + /
    + schema name with the [cascade] parameter, parse and validate the drop
    response, return its [dropped] flag. *)
Definition drop_schema_try (schema_name : string) (cascade : bool) : Py bool :=
  let query := [("cascade", str_bool cascade)] in
  rc <- getattr_self rest_client ;;
  ns <- getattr_self schema_namespace ;;
  p <- liftE (format_schema_request_path ns) ;;
  resp <- http_delete rc (p ++ "/" ++ schema_name) query ;;
  drop_resp <- liftE (DropResponse_from_json codec (body resp)) ;;
  liftE (DropResponse_validate codec drop_resp) ;;
  ret (dropped drop_resp).

(** The body of its [except Exception] handler: log a warning that names
    [ident], return [False]. *)
Definition drop_schema_except : Py bool :=
  ident <- liftE (load_global "ident") ;;
  logger_warning "Failed to drop schema %s" ident ;;
  ret false.

(** The [try] statement of [drop_schema] on its own. *)
Definition drop_schema_try_statement (schema_name : string) (cascade : bool)
  : Py bool :=
  try_except_Exception (drop_schema_try schema_name cascade) drop_schema_except.

(** [drop_schema]: [NameIdentifier.check_schema(ident)], then the [try]
    statement.  [ident] is not a local of the function (see
    [drop_schema_local_names]), so it is loaded as a global. *)
Definition drop_schema (schema_name : string) (cascade : bool) : Py bool :=
  ident <- liftE (load_global "ident") ;;
  liftE (NameIdentifier_check_schema ident) ;;
  drop_schema_try_statement schema_name cascade.

End Operations.

(** ** A concrete codec, transport and client

    Used to run the operations on concrete inputs. *)

(** Modelled from the spec: [NameIdentifier.__str__], defined in
    [gravitino.name_identifier] and not in this module.  The spec writes the identifier with namespace (m, c) and leaf name s1
    as the string m.c.s1: the levels and the name joined by dots. *)
Definition dotted_str (i : NameIdentifier) : string :=
  String.concat "." (ident_namespace i ++ [ident_name i])%list.

(** Modelled from the spec: the [validate] and [from_json] methods of the
    request and response classes, defined in [gravitino.dto] and not in this
    module.  The create request
    requires a non-empty name; the update list is accepted as it is (an empty
    one is still sent); the three bodies below parse to the payloads they
    spell out, and any other body is a protocol error. *)
Definition spec_codec : Codec :=
  mkCodec
    (fun req => if String.eqb (create_name req) ""
                then inl (ValueError "name is required") else inr tt)
    (fun _ => inr tt)
    (fun b => if String.eqb b "identifiers: m.c.s1, m.c.s2"
              then inr (mkEntityListResponse 0
                          [mkNameIdentifier ["m"; "c"] "s1";
                           mkNameIdentifier ["m"; "c"] "s2"])
              else inl (Raised "JSONDecodeError" b))
    (fun _ => inr tt)
    (fun b => if String.eqb b "schema: s1, c, k=v"
              then inr (mkSchemaResponse 0
                          (mkSchema "s1" (Some "c") (Some [("k", "v")])
                             (Some (mkAuditDTO (Some "anonymous")
                                      (Some "2024-04-01T00:00:00Z") None None))))
              else inl (Raised "JSONDecodeError" b))
    (fun _ => inr tt)
    (fun b => if String.eqb b "dropped: true"
              then inr (mkDropResponse 0 true)
              else inl (Raised "JSONDecodeError" b))
    (fun _ => inr tt)
    dotted_str.

(** A server holding schemas s1 and s2 in catalog c of metalake m. *)
Definition example_server : HTTPClient.t :=
  HTTPClient.mk
    (fun p => if String.eqb p "api/metalakes/m/catalogs/c/schemas"
              then inr (mkResponse "identifiers: m.c.s1, m.c.s2")
              else if String.eqb p "api/metalakes/m/catalogs/c/schemas/s1"
              then inr (mkResponse "schema: s1, c, k=v")
              else inl (Raised "NoSuchSchemaException" p))
    (fun p _ => inr (mkResponse "schema: s1, c, k=v"))
    (fun p _ => inr (mkResponse "schema: s1, c, k=v"))
    (fun p _ => inr (mkResponse "dropped: true")).

(** A transport whose every call fails. *)
Definition unreachable_server : HTTPClient.t :=
  HTTPClient.mk
    (fun _ => inl (Raised "ConnectionError" "connection refused"))
    (fun _ _ => inl (Raised "ConnectionError" "connection refused"))
    (fun _ _ => inl (Raised "ConnectionError" "connection refused"))
    (fun _ _ => inl (Raised "ConnectionError" "connection refused")).

(** A server whose every answer is a body no response class parses. *)
Definition garbled_server : HTTPClient.t :=
  HTTPClient.mk
    (fun _ => inr (mkResponse "<html>"))
    (fun _ _ => inr (mkResponse "<html>"))
    (fun _ _ => inr (mkResponse "<html>"))
    (fun _ _ => inr (mkResponse "<html>")).

(** The codec above, except that its update-list request refuses an empty
    list of updates. *)
Definition strict_codec : Codec :=
  mkCodec
    (SchemaCreateRequest_validate spec_codec)
    (fun req => match updates req with
                | [] => inl (ValueError "Updates cannot be empty")
                | _ => inr tt
                end)
    (EntityListResponse_from_json spec_codec)
    (EntityListResponse_validate spec_codec)
    (SchemaResponse_from_json spec_codec)
    (SchemaResponse_validate spec_codec)
    (DropResponse_from_json spec_codec)
    (DropResponse_validate spec_codec)
    (NameIdentifier_str spec_codec).

Definition example_dto : CatalogDTO :=
  mkCatalogDTO "c" "RELATIONAL" (Some "hive") None None None.

(** The client [BaseSchemaCatalog(Namespace.of("m"), "c", ..., rest_client)]
    builds. *)
Definition example_client (rc : HTTPClient.t) : BaseSchemaCatalog :=
  mkBaseSchemaCatalog example_dto ["m"] ["m"; "c"] rc.

(** A client object whose [schema_namespace] attribute holds one level. *)
Definition one_level_client (rc : HTTPClient.t) : BaseSchemaCatalog :=
  mkBaseSchemaCatalog example_dto ["m"] ["m"] rc.

Definition fresh (c : BaseSchemaCatalog) : World := mkWorld c [] [].

(** ** Notions the statements use *)

(** The state after one more request has been handed to the REST client. *)
Definition issue (r : Request) (w : World) : World :=
  mkWorld (self w) (sent w ++ [r]) (warnings w).

(** [keeps_self c]: whatever [c] does, the client object is the same
    afterwards. *)
Definition keeps_self {A : Type} (c : Py A) : Prop :=
  forall w : World, self (snd (run c w)) = self w.

(** The mapping as the specification words it: a set-property change gives
    the set-property request on the same key and value, a remove-property
    change the remove-property request on the same key. *)
Inductive request_of : SchemaChange -> SchemaUpdateRequest -> Prop :=
| request_of_set (k v : string) :
    request_of (SetProperty k v) (SetSchemaPropertyRequest k v)
| request_of_remove (k : string) :
    request_of (RemoveProperty k) (RemoveSchemaPropertyRequest k).

(** [sends_le n c]: whatever the state, [c] hands at most [n] further
    requests to the REST client, after those already sent, and logs no
    warning. *)
Definition sends_le {A : Type} (n : nat) (c : Py A) : Prop :=
  forall w : World,
  exists l : list Request,
    sent (snd (run c w)) = (sent w ++ l)%list /\
    List.length l <= n /\
    warnings (snd (run c w)) = warnings w.

(** Whether a string holds the path separator. *)
Fixpoint has_slash (s : string) : bool :=
  match s with
  | EmptyString => false
  | String c s' => Ascii.eqb c "/"%char || has_slash s'
  end.

(** The base path of a catalog's schemas. *)
Definition base_path (level0 level1 : string) : string :=
  "api/metalakes/" ++ level0 ++ "/catalogs/" ++ level1 ++ "/schemas".

Section Decoding.

Variable codec : Codec.

(** Parse, validate and unwrap a single-schema answer. *)
Definition decode_schema (r : BaseException + Response) : BaseException + Schema :=
  match r with
  | inl e => inl e
  | inr resp =>
      match SchemaResponse_from_json codec (body resp) with
      | inl e => inl e
      | inr schema_response =>
          match SchemaResponse_validate codec schema_response with
          | inl e => inl e
          | inr _ => inr (schema schema_response)
          end
      end
  end.

Definition decode_entity_list (r : BaseException + Response)
  : BaseException + list string :=
  match r with
  | inl e => inl e
  | inr resp =>
      match EntityListResponse_from_json codec (body resp) with
      | inl e => inl e
      | inr entity_list_response =>
          match EntityListResponse_validate codec entity_list_response with
          | inl e => inl e
          | inr _ =>
              inr (map (NameIdentifier_str codec) (identifiers entity_list_response))
          end
      end
  end.

Definition decode_drop (r : BaseException + Response) : BaseException + bool :=
  match r with
  | inl e => inl e
  | inr resp =>
      match DropResponse_from_json codec (body resp) with
      | inl e => inl e
      | inr drop_resp =>
          match DropResponse_validate codec drop_resp with
          | inl e => inl e
          | inr _ => inr (dropped drop_resp)
          end
      end
  end.

End Decoding.

(** ** Running computations *)

Section RunEquations.

Context {A B : Type}.

Lemma run_ret (a : A) (w : World) : run (ret a) w = (inr a, w).
Proof. reflexivity. Qed.

Lemma run_raise (e : BaseException) (w : World) :
  run (raise e : Py A) w = (inl e, w).
Proof. reflexivity. Qed.

Lemma run_bind (c : Py A) (k : A -> Py B) (w : World) :
  run (bind c k) w =
  match run c w with
  | (inl e, w') => (inl e, w')
  | (inr a, w') => run (k a) w'
  end.
Proof.
  unfold run. simpl.
  destruct (runState (unEitherT c) w) as [[e | a] w']; reflexivity.
Qed.

Lemma run_liftE (r : BaseException + A) (w : World) :
  run (liftE r) w = (r, w).
Proof. destruct r; reflexivity. Qed.

Lemma run_getattr_self (field : BaseSchemaCatalog -> A) (w : World) :
  run (getattr_self field) w = (inr (field (self w)), w).
Proof. reflexivity. Qed.

Lemma run_try_except_Exception (body handler : Py A) (w : World) :
  run (try_except_Exception body handler) w =
  match run body w with
  | (inl e, w') => if is_Exception e then run handler w' else (inl e, w')
  | (inr a, w') => (inr a, w')
  end.
Proof.
  unfold try_except_Exception, run. simpl.
  destruct (runState (unEitherT body) w) as [[e | a] w']; simpl;
    [destruct (is_Exception e) |]; reflexivity.
Qed.

End RunEquations.

Lemma run_http_get (rc : HTTPClient.t) (p : string) (w : World) :
  run (http_get rc p) w =
  (HTTPClient.get rc p, issue (mkRequest GET p NoPayload []) w).
Proof. unfold http_get. destruct (HTTPClient.get rc p); reflexivity. Qed.

Lemma run_http_post (rc : HTTPClient.t) (p : string) (req : SchemaCreateRequest)
  (w : World) :
  run (http_post rc p req) w =
  (HTTPClient.post rc p req, issue (mkRequest POST p (CreatePayload req) []) w).
Proof. unfold http_post. destruct (HTTPClient.post rc p req); reflexivity. Qed.

Lemma run_http_put (rc : HTTPClient.t) (p : string) (req : SchemaUpdatesRequest)
  (w : World) :
  run (http_put rc p req) w =
  (HTTPClient.put rc p req, issue (mkRequest PUT p (UpdatesPayload req) []) w).
Proof. unfold http_put. destruct (HTTPClient.put rc p req); reflexivity. Qed.

Lemma run_http_delete (rc : HTTPClient.t) (p : string)
  (query : list (string * string)) (w : World) :
  run (http_delete rc p query) w =
  (HTTPClient.delete rc p query, issue (mkRequest DELETE p NoPayload query) w).
Proof. unfold http_delete. destruct (HTTPClient.delete rc p query); reflexivity. Qed.

Lemma run_logger_warning (fmt : string) (arg : PyObject) (w : World) :
  run (logger_warning fmt arg) w =
  (inr tt, mkWorld (self w) (sent w) (warnings w ++ [(fmt, arg)])).
Proof. reflexivity. Qed.

Create Rewrite HintDb run.

#[global] Hint Rewrite @run_ret @run_raise @run_bind @run_liftE
  @run_getattr_self @run_try_except_Exception run_http_get run_http_post
  run_http_put run_http_delete run_logger_warning : run.

(** Steps every proof about a method body starts with. *)
Ltac step_run := autorewrite with run; cbn [fst snd self sent warnings issue].

(** ** Names *)

Lemma ident_not_local : existsb (String.eqb "ident") drop_schema_local_names = false.
Proof. reflexivity. Qed.

Lemma load_global_ident : load_global "ident" = inl (NameError "ident").
Proof. vm_compute. reflexivity. Qed.

(** ** The request path *)

Lemma format_schema_request_path_two (level0 level1 : string) (rest : list string) :
  format_schema_request_path (level0 :: level1 :: rest) =
  inr ("api/metalakes/" ++ level0 ++ "/catalogs/" ++ level1 ++ "/schemas").
Proof. reflexivity. Qed.


(** A client built by [__init__] has a schema namespace of two levels: the
    first level of its namespace and the catalog name. *)
Lemma init_schema_namespace ns name catalog_type provider comment properties
  audit rc c :
  init ns name catalog_type provider comment properties audit rc = inr c ->
  exists level0,
    Namespace_level ns 0 = inr level0 /\
    schema_namespace c = [level0; name] /\
    namespace c = ns /\ rest_client c = rc.
Proof.
  unfold init. destruct (Namespace_level ns 0) as [e | level0]; intros H.
  - discriminate.
  - injection H as <-. exists level0. repeat split.
Qed.

(** ** What each operation computes

    Once the path is built, an operation is one call on the REST client
    followed by decoding of the answer; the lemmas of this section give the
    outcome and the final state of each operation in closed form. *)

Section Outcomes.

Variable codec : Codec.

Variable w : World.
Variables (level0 level1 : string) (rest : list string).
Hypothesis Hns : schema_namespace (self w) = level0 :: level1 :: rest.

Lemma run_list_schemas :
  rest = [] ->
  run (list_schemas codec) w =
  (decode_entity_list codec (HTTPClient.get (rest_client (self w)) (base_path level0 level1)),
   issue (mkRequest GET (base_path level0 level1) NoPayload []) w).
Proof.
  intros ->. unfold list_schemas. step_run. rewrite Hns. cbn [Namespace_check_schema
    List.length Nat.eqb]. step_run. rewrite format_schema_request_path_two.
  step_run. fold (base_path level0 level1). unfold decode_entity_list.
  destruct (HTTPClient.get _ _) as [e | resp]; [reflexivity |].
  step_run.
  destruct (EntityListResponse_from_json _ _) as [e | r]; [reflexivity |].
  step_run.
  destruct (EntityListResponse_validate _ _) as [e | []]; reflexivity.
Qed.

Lemma run_load_schema (schema_name : string) :
  run (load_schema codec schema_name) w =
  (decode_schema codec
     (HTTPClient.get (rest_client (self w))
        (base_path level0 level1 ++ "/" ++ schema_name)),
   issue (mkRequest GET (base_path level0 level1 ++ "/" ++ schema_name)
            NoPayload []) w).
Proof.
  unfold load_schema. step_run. rewrite Hns, format_schema_request_path_two.
  step_run. fold (base_path level0 level1). unfold decode_schema.
  destruct (HTTPClient.get _ _) as [e | resp]; [reflexivity |].
  step_run.
  destruct (SchemaResponse_from_json _ _) as [e | r]; [reflexivity |].
  step_run.
  destruct (SchemaResponse_validate _ _) as [e | []]; reflexivity.
Qed.

Lemma run_create_schema (schema_name : string) (comment : option string)
  (properties : option (list (string * string))) :
  let req := mkSchemaCreateRequest schema_name comment properties in
  SchemaCreateRequest_validate codec req = inr tt ->
  run (create_schema codec schema_name comment properties) w =
  (decode_schema codec
     (HTTPClient.post (rest_client (self w)) (base_path level0 level1) req),
   issue (mkRequest POST (base_path level0 level1) (CreatePayload req) []) w).
Proof.
  intros req Hv. unfold create_schema. fold req. step_run. rewrite Hv.
  step_run. rewrite Hns, format_schema_request_path_two.
  step_run. fold (base_path level0 level1). unfold decode_schema.
  destruct (HTTPClient.post _ _ _) as [e | resp]; [reflexivity |].
  step_run.
  destruct (SchemaResponse_from_json _ _) as [e | r]; [reflexivity |].
  step_run.
  destruct (SchemaResponse_validate _ _) as [e | []]; reflexivity.
Qed.

Lemma run_alter_schema (schema_name : string) (changes : list SchemaChange)
  (reqs : list SchemaUpdateRequest) :
  list_comprehension to_schema_update_request changes = inr reqs ->
  SchemaUpdatesRequest_validate codec (mkSchemaUpdatesRequest reqs) = inr tt ->
  run (alter_schema codec schema_name changes) w =
  (decode_schema codec
     (HTTPClient.put (rest_client (self w))
        (base_path level0 level1 ++ "/" ++ schema_name)
        (mkSchemaUpdatesRequest reqs)),
   issue (mkRequest PUT (base_path level0 level1 ++ "/" ++ schema_name)
            (UpdatesPayload (mkSchemaUpdatesRequest reqs)) []) w).
Proof.
  intros Hmap Hv. unfold alter_schema. step_run. rewrite Hmap.
  step_run. rewrite Hv.
  step_run. rewrite Hns, format_schema_request_path_two.
  step_run. fold (base_path level0 level1). unfold decode_schema.
  destruct (HTTPClient.put _ _ _) as [e | resp]; [reflexivity |].
  step_run.
  destruct (SchemaResponse_from_json _ _) as [e | r]; [reflexivity |].
  step_run.
  destruct (SchemaResponse_validate _ _) as [e | []]; reflexivity.
Qed.

Lemma run_drop_schema_try (schema_name : string) (cascade : bool) :
  run (drop_schema_try codec schema_name cascade) w =
  (decode_drop codec
     (HTTPClient.delete (rest_client (self w))
        (base_path level0 level1 ++ "/" ++ schema_name)
        [("cascade", str_bool cascade)]),
   issue (mkRequest DELETE (base_path level0 level1 ++ "/" ++ schema_name)
            NoPayload [("cascade", str_bool cascade)]) w).
Proof.
  unfold drop_schema_try. step_run. rewrite Hns, format_schema_request_path_two.
  step_run. fold (base_path level0 level1). unfold decode_drop.
  destruct (HTTPClient.delete _ _ _) as [e | resp]; [reflexivity |].
  step_run.
  destruct (DropResponse_from_json _ _) as [e | r]; [reflexivity |].
  step_run.
  destruct (DropResponse_validate _ _) as [e | []]; reflexivity.
Qed.

End Outcomes.


(** ** The client object is only read *)

Section Frame.

Context {A B : Type}.

Lemma keeps_self_ret (a : A) : keeps_self (ret a : Py A).
Proof. intros w. reflexivity. Qed.

Lemma keeps_self_raise (e : BaseException) : keeps_self (raise e : Py A).
Proof. intros w. reflexivity. Qed.

Lemma keeps_self_liftE (r : BaseException + A) : keeps_self (liftE r).
Proof. intros w. rewrite run_liftE. reflexivity. Qed.

Lemma keeps_self_getattr_self (field : BaseSchemaCatalog -> A) :
  keeps_self (getattr_self field).
Proof. intros w. reflexivity. Qed.

Lemma keeps_self_bind (c : Py A) (k : A -> Py B) :
  keeps_self c -> (forall a, keeps_self (k a)) -> keeps_self (bind c k).
Proof.
  intros Hc Hk w. rewrite run_bind. specialize (Hc w).
  destruct (run c w) as [[e | a] w']; cbn [snd] in *.
  - exact Hc.
  - rewrite Hk. exact Hc.
Qed.

Lemma keeps_self_try_except_Exception (body handler : Py A) :
  keeps_self body -> keeps_self handler ->
  keeps_self (try_except_Exception body handler).
Proof.
  intros Hb Hh w. rewrite run_try_except_Exception. specialize (Hb w).
  destruct (run body w) as [[e | a] w']; cbn [snd] in *.
  - destruct (is_Exception e); cbn [snd]; [rewrite Hh |]; exact Hb.
  - exact Hb.
Qed.

End Frame.

Lemma keeps_self_http_get rc p : keeps_self (http_get rc p).
Proof. intros w. rewrite run_http_get. reflexivity. Qed.

Lemma keeps_self_http_post rc p req : keeps_self (http_post rc p req).
Proof. intros w. rewrite run_http_post. reflexivity. Qed.

Lemma keeps_self_http_put rc p req : keeps_self (http_put rc p req).
Proof. intros w. rewrite run_http_put. reflexivity. Qed.

Lemma keeps_self_http_delete rc p query : keeps_self (http_delete rc p query).
Proof. intros w. rewrite run_http_delete. reflexivity. Qed.

Lemma keeps_self_logger_warning fmt arg : keeps_self (logger_warning fmt arg).
Proof. intros w. reflexivity. Qed.

Create HintDb frame.

#[global] Hint Resolve keeps_self_ret keeps_self_raise keeps_self_liftE
  keeps_self_getattr_self keeps_self_http_get keeps_self_http_post
  keeps_self_http_put keeps_self_http_delete keeps_self_logger_warning : frame.

(** Walk down a method body, one statement at a time. *)
Ltac frame :=
  repeat first
    [ solve [auto with frame]
    | apply keeps_self_try_except_Exception
    | apply keeps_self_bind; [| intros ?] ].

Section FrameOperations.

Variable codec : Codec.

Lemma keeps_self_list_schemas : keeps_self (list_schemas codec).
Proof. unfold list_schemas. frame. Qed.

Lemma keeps_self_create_schema schema_name comment properties :
  keeps_self (create_schema codec schema_name comment properties).
Proof. unfold create_schema. frame. Qed.

Lemma keeps_self_load_schema schema_name :
  keeps_self (load_schema codec schema_name).
Proof. unfold load_schema. frame. Qed.

Lemma keeps_self_alter_schema schema_name changes :
  keeps_self (alter_schema codec schema_name changes).
Proof. unfold alter_schema. frame. Qed.

Lemma keeps_self_drop_schema schema_name cascade :
  keeps_self (drop_schema codec schema_name cascade).
Proof.
  unfold drop_schema, drop_schema_try_statement, drop_schema_try,
    drop_schema_except. frame.
Qed.

End FrameOperations.

(** ** The change-to-request mapping *)

Lemma to_schema_update_request_sound (change : SchemaChange)
  (r : SchemaUpdateRequest) :
  to_schema_update_request change = inr r -> request_of change r.
Proof.
  destruct change; simpl; intros H; inversion H; subst; constructor.
Qed.

Lemma list_comprehension_Forall2 {A B : Type} (f : A -> BaseException + B)
  (xs : list A) :
  forall ys, list_comprehension f xs = inr ys ->
             Forall2 (fun x y => f x = inr y) xs ys.
Proof.
  induction xs as [| x xs IH]; simpl; intros ys H.
  - injection H as <-. constructor.
  - destruct (f x) as [e | y] eqn:Hx; [discriminate |].
    destruct (list_comprehension f xs) as [e | ys'] eqn:Hxs; [discriminate |].
    injection H as <-. constructor; [exact Hx | apply IH; reflexivity].
Qed.

Lemma requests_of_changes (changes : list SchemaChange)
  (reqs : list SchemaUpdateRequest) :
  list_comprehension to_schema_update_request changes = inr reqs ->
  Forall2 request_of changes reqs.
Proof.
  intros H. apply list_comprehension_Forall2 in H.
  induction H; constructor; auto using to_schema_update_request_sound.
Qed.

Lemma supported_changes_all_mapped (changes : list SchemaChange) :
  (forall cls, ~ In (OtherChange cls) changes) ->
  exists reqs, list_comprehension to_schema_update_request changes = inr reqs.
Proof.
  induction changes as [| ch changes IH]; intros Hno.
  - exists []. reflexivity.
  - destruct IH as [reqs Hreqs].
    { intros cls Hin. apply (Hno cls). right. exact Hin. }
    simpl. rewrite Hreqs. destruct ch as [k v | k | cls].
    + eexists. reflexivity.
    + eexists. reflexivity.
    + exfalso. apply (Hno cls). left. reflexivity.
Qed.

Lemma unsupported_change_raises (changes : list SchemaChange) :
  (exists cls, In (OtherChange cls) changes) ->
  exists cls,
    In (OtherChange cls) changes /\
    list_comprehension to_schema_update_request changes =
    inl (ValueError ("Unknown change type: " ++ cls)).
Proof.
  induction changes as [| ch changes IH]; intros [cls Hin].
  - destruct Hin.
  - destruct ch as [k v | k | cls'].
    + destruct Hin as [Heq | Hin]; [discriminate |].
      destruct IH as [cls0 [Hin0 Hrun]]; [exists cls; exact Hin |].
      exists cls0. split; [right; exact Hin0 |]. simpl. rewrite Hrun. reflexivity.
    + destruct Hin as [Heq | Hin]; [discriminate |].
      destruct IH as [cls0 [Hin0 Hrun]]; [exists cls; exact Hin |].
      exists cls0. split; [right; exact Hin0 |]. simpl. rewrite Hrun. reflexivity.
    + exists cls'. split; [left; reflexivity | reflexivity].
Qed.

(** ** [drop_schema] and the name [ident] *)

Lemma run_drop_schema (codec : Codec) (schema_name : string) (cascade : bool)
  (w : World) :
  run (drop_schema codec schema_name cascade) w = (inl (NameError "ident"), w).
Proof.
  unfold drop_schema. step_run. rewrite load_global_ident. reflexivity.
Qed.

(** The handler names [ident] as well: a failure caught by the [try]
    statement taken alone ends in the same [NameError], not in [False]. *)
Lemma run_drop_schema_try_statement_caught (codec : Codec) (schema_name : string)
  (cascade : bool) (w w' : World) (e : BaseException) :
  run (drop_schema_try codec schema_name cascade) w = (inl e, w') ->
  is_Exception e = true ->
  run (drop_schema_try_statement codec schema_name cascade) w =
  (inl (NameError "ident"), w').
Proof.
  intros Hbody Hexc. unfold drop_schema_try_statement.
  rewrite run_try_except_Exception, Hbody, Hexc.
  unfold drop_schema_except. step_run. rewrite load_global_ident. reflexivity.
Qed.

(** ** What [list_schemas] returns *)

(** X15. On success [list_schemas] returns [str] of each identifier of the
    response, one per identifier and in the order of the response. *)
Lemma list_schemas_maps_str (codec : Codec) (w : World) (level0 level1 : string)
  (resp : Response) (entity_list_response : EntityListResponse) :
  schema_namespace (self w) = [level0; level1] ->
  HTTPClient.get (rest_client (self w)) (base_path level0 level1) = inr resp ->
  EntityListResponse_from_json codec (body resp) = inr entity_list_response ->
  EntityListResponse_validate codec entity_list_response = inr tt ->
  fst (run (list_schemas codec) w) =
  inr (map (NameIdentifier_str codec) (identifiers entity_list_response)).
Proof.
  intros Hns Hget Hjson Hval.
  rewrite (run_list_schemas codec w level0 level1 [] Hns eq_refl). cbn [fst].
  rewrite Hget. cbn [decode_entity_list]. rewrite Hjson, Hval. reflexivity.
Qed.

(** That list is the list of leaf names exactly when [str] of every
    identifier of the response is its leaf name. *)
Lemma map_str_leaf_names (str : NameIdentifier -> string)
  (ids : list NameIdentifier) :
  map str ids = map ident_name ids <-> Forall (fun i => str i = ident_name i) ids.
Proof.
  induction ids as [| i ids IH]; simpl.
  - split; [constructor | reflexivity].
  - split.
    + intros H. injection H as Hi Hids. constructor; [exact Hi | apply IH, Hids].
    + intros H. inversion H as [| ? ? Hi Hids]; subst.
      rewrite Hi. f_equal. apply IH, Hids.
Qed.

(** ** Properties of the operations *)

(** C1. [drop_schema] is meant to catch every failure of the call and
    return [False].  It does not: its first statement loads the name
    [ident], bound nowhere, so every call -- whatever the transport or the
    server would answer -- ends in [NameError] before the [try] statement is
    entered, the state untouched, and the outcome is never [False]. *)
Theorem drop_schema_raises_NameError (codec : Codec) (schema_name : string)
  (cascade : bool) (w : World) :
  run (drop_schema codec schema_name cascade) w = (inl (NameError "ident"), w) /\
  fst (run (drop_schema codec schema_name cascade) w) <> inr false.
Proof.
  rewrite run_drop_schema. split; [reflexivity | discriminate].
Qed.

(** C2. [list_schemas] returns [str(identifier)] of each identifier of the
    response, in the order of the response.  For the identifiers m.c.s1 and
    m.c.s2 that is the list of their full dotted forms, not the leaf names
    s1 and s2. *)
Theorem list_schemas_returns_str_of_identifiers :
  fst (run (list_schemas spec_codec) (fresh (example_client example_server))) =
  inr ["m.c.s1"; "m.c.s2"] /\
  fst (run (list_schemas spec_codec) (fresh (example_client example_server))) <>
  inr ["s1"; "s2"].
Proof.
  rewrite (@run_list_schemas spec_codec (fresh (example_client example_server))
             "m" "c" [] eq_refl eq_refl).
  split; [reflexivity | vm_compute; discriminate].
Qed.

(** C3. The identifier check of [drop_schema] is applied to the unbound name
    [ident], not to the target of the call: every call, also one whose
    target is well formed, fails with [NameError], never with the
    invalid-identifier error; no request has been issued by then. *)
Theorem drop_schema_checks_unbound_name (codec : Codec) (schema_name : string)
  (cascade : bool) (w : World) :
  fst (run (drop_schema codec schema_name cascade) w) = inl (NameError "ident") /\
  (forall msg, fst (run (drop_schema codec schema_name cascade) w) <>
               inl (IllegalNameIdentifierException msg)) /\
  sent (snd (run (drop_schema codec schema_name cascade) w)) = sent w.
Proof.
  rewrite run_drop_schema. repeat split. intros msg. discriminate.
Qed.

(** C4. [to_schema_update_request] maps [SetProperty k v] to
    [SetSchemaPropertyRequest k v] and [RemoveProperty k] to
    [RemoveSchemaPropertyRequest k], and raises the unknown-change-type
    [ValueError] on any other change.  Over a sequence of changes the
    requests built are in the order of the changes, one per change; a
    sequence of supported changes is mapped whole; and when the sequence
    holds a change of another class, [alter_schema] raises that error with
    nothing sent and the state untouched. *)
Theorem to_schema_update_request_exhaustive (codec : Codec)
  (schema_name : string) (changes : list SchemaChange) (w : World) :
  (forall k v, to_schema_update_request (SetProperty k v) =
               inr (SetSchemaPropertyRequest k v)) /\
  (forall k, to_schema_update_request (RemoveProperty k) =
             inr (RemoveSchemaPropertyRequest k)) /\
  (forall cls, to_schema_update_request (OtherChange cls) =
               inl (ValueError ("Unknown change type: " ++ cls))) /\
  (forall reqs,
      list_comprehension to_schema_update_request changes = inr reqs ->
      Forall2 request_of changes reqs) /\
  ((forall cls, ~ In (OtherChange cls) changes) ->
   exists reqs, list_comprehension to_schema_update_request changes = inr reqs) /\
  ((exists cls, In (OtherChange cls) changes) ->
   exists cls,
     In (OtherChange cls) changes /\
     run (alter_schema codec schema_name changes) w =
     (inl (ValueError ("Unknown change type: " ++ cls)), w)).
Proof.
  repeat split; try reflexivity.
  - apply requests_of_changes.
  - apply supported_changes_all_mapped.
  - intros Hex. destruct (unsupported_change_raises changes Hex) as [cls [Hin Hmap]].
    exists cls. split; [exact Hin |].
    unfold alter_schema. step_run. rewrite Hmap. reflexivity.
Qed.

(** C5. When the schema namespace of the client does not have exactly 2
    levels, [list_schemas] raises the invalid-namespace error and the state
    is the one it started from: no request was issued. *)
Theorem list_schemas_invalid_namespace (codec : Codec) (w : World) :
  List.length (schema_namespace (self w)) <> 2 ->
  exists msg,
    run (list_schemas codec) w = (inl (IllegalNamespaceException msg), w).
Proof.
  intros Hlen. eexists. unfold list_schemas. step_run.
  unfold Namespace_check_schema.
  destruct (Nat.eqb_spec (List.length (schema_namespace (self w))) 2) as [Heq | _].
  - contradiction.
  - reflexivity.
Qed.

(** C6. The per-schema path is never used by [drop_schema]: the call ends
    in [NameError] on [ident] before the path is built, so no request -- on
    that path or any other -- is added to those already issued, though the
    [try] block means to send the DELETE on it. *)
Theorem drop_schema_issues_no_request (codec : Codec) (w : World)
  (schema_name : string) (cascade : bool) :
  run (drop_schema codec schema_name cascade) w = (inl (NameError "ident"), w) /\
  forall r : Request,
    sent (snd (run (drop_schema codec schema_name cascade) w)) <>
    (sent w ++ [r])%list.
Proof.
  rewrite run_drop_schema. split; [reflexivity |].
  cbn [snd]. intros r H. apply (f_equal (@List.length Request)) in H.
  rewrite length_app in H. simpl in H. lia.
Qed.

(** X17. On a 2-level namespace [format_schema_request_path] returns
    api/metalakes/ + level0 + /catalogs/ + level1 + /schemas, and the path
    that [load_schema], [alter_schema] and the [try] block of [drop_schema]
    taken alone hand to the REST client is that string followed by / and the
    schema name. *)
Theorem schema_request_paths (codec : Codec) (w : World)
  (schema_name level0 level1 : string) :
  schema_namespace (self w) = [level0; level1] ->
  format_schema_request_path [level0; level1] =
  inr ("api/metalakes/" ++ level0 ++ "/catalogs/" ++ level1 ++ "/schemas") /\
  sent (snd (run (load_schema codec schema_name) w)) =
  (sent w ++
   [mkRequest GET
      (("api/metalakes/" ++ level0 ++ "/catalogs/" ++ level1 ++ "/schemas")
       ++ "/" ++ schema_name) NoPayload []])%list /\
  (forall changes reqs,
      list_comprehension to_schema_update_request changes = inr reqs ->
      SchemaUpdatesRequest_validate codec (mkSchemaUpdatesRequest reqs) = inr tt ->
      sent (snd (run (alter_schema codec schema_name changes) w)) =
      (sent w ++
       [mkRequest PUT
          (("api/metalakes/" ++ level0 ++ "/catalogs/" ++ level1 ++ "/schemas")
           ++ "/" ++ schema_name)
          (UpdatesPayload (mkSchemaUpdatesRequest reqs)) []])%list) /\
  (forall cascade,
      sent (snd (run (drop_schema_try codec schema_name cascade) w)) =
      (sent w ++
       [mkRequest DELETE
          (("api/metalakes/" ++ level0 ++ "/catalogs/" ++ level1 ++ "/schemas")
           ++ "/" ++ schema_name)
          NoPayload [("cascade", str_bool cascade)]])%list).
Proof.
  intros Hns. split; [reflexivity |]. split; [| split].
  - rewrite (run_load_schema codec w level0 level1 [] Hns). reflexivity.
  - intros changes reqs Hmap Hv.
    rewrite (run_alter_schema codec w level0 level1 [] Hns schema_name changes
               reqs Hmap Hv). reflexivity.
  - intros cascade. rewrite (run_drop_schema_try codec w level0 level1 [] Hns). reflexivity.
Qed.

(** C7. With no changes [alter_schema] does not return early: it wraps the
    empty list of updates and validates it.  When the update-list request
    accepts the empty list, exactly one request is issued, a PUT on the
    per-schema path whose body is the update list with no update in it; when
    it refuses the empty list, that error is raised and nothing is sent. *)
Theorem alter_schema_empty_changes_validated (codec : Codec) (w : World)
  (schema_name level0 level1 : string) :
  schema_namespace (self w) = [level0; level1] ->
  (SchemaUpdatesRequest_validate codec (mkSchemaUpdatesRequest []) = inr tt ->
   sent (snd (run (alter_schema codec schema_name []) w)) =
   (sent w ++
    [mkRequest PUT
       (("api/metalakes/" ++ level0 ++ "/catalogs/" ++ level1 ++ "/schemas")
        ++ "/" ++ schema_name)
       (UpdatesPayload (mkSchemaUpdatesRequest [])) []])%list) /\
  (forall e,
      SchemaUpdatesRequest_validate codec (mkSchemaUpdatesRequest []) = inl e ->
      run (alter_schema codec schema_name []) w = (inl e, w)).
Proof.
  intros Hns. split.
  - intros Hv.
    rewrite (@run_alter_schema codec w level0 level1 [] Hns schema_name [] []
               eq_refl Hv).
    reflexivity.
  - intros e Hv. unfold alter_schema. step_run.
    cbn [list_comprehension]. step_run. rewrite Hv. reflexivity.
Qed.

(** C8. When the server answers [create_schema] with a body that parses to
    a single-schema response passing validation, the schema returned is the
    schema of that response, field for field. *)
Theorem create_schema_round_trip (codec : Codec) (w : World)
  (schema_name : string) (comment : option string)
  (properties : option (list (string * string))) (level0 level1 : string)
  (resp : Response) (schema_response : SchemaResponse) :
  schema_namespace (self w) = [level0; level1] ->
  SchemaCreateRequest_validate codec
    (mkSchemaCreateRequest schema_name comment properties) = inr tt ->
  HTTPClient.post (rest_client (self w))
    ("api/metalakes/" ++ level0 ++ "/catalogs/" ++ level1 ++ "/schemas")
    (mkSchemaCreateRequest schema_name comment properties) = inr resp ->
  SchemaResponse_from_json codec (body resp) = inr schema_response ->
  SchemaResponse_validate codec schema_response = inr tt ->
  fst (run (create_schema codec schema_name comment properties) w) =
  inr (schema schema_response).
Proof.
  intros Hns Hreq Hpost Hjson Hval.
  rewrite (run_create_schema codec w level0 level1 [] Hns _ _ _ Hreq). cbn [fst].
  unfold base_path. rewrite Hpost. cbn [decode_schema].
  rewrite Hjson, Hval. reflexivity.
Qed.

(** C9. None of the five operations changes the client object: after the
    call, whatever its arguments, the answer of the transport and its
    outcome, every attribute of [self] (catalog fields, namespace, schema
    namespace, REST client) is what it was before. *)
Theorem operations_keep_client (codec : Codec) (w : World) :
  self (snd (run (list_schemas codec) w)) = self w /\
  (forall schema_name comment properties,
      self (snd (run (create_schema codec schema_name comment properties) w)) =
      self w) /\
  (forall schema_name,
      self (snd (run (load_schema codec schema_name) w)) = self w) /\
  (forall schema_name changes,
      self (snd (run (alter_schema codec schema_name changes) w)) = self w) /\
  (forall schema_name cascade,
      self (snd (run (drop_schema codec schema_name cascade) w)) = self w).
Proof.
  split; [| split; [| split; [| split]]]; intros.
  - apply keeps_self_list_schemas.
  - apply keeps_self_create_schema.
  - apply keeps_self_load_schema.
  - apply keeps_self_alter_schema.
  - apply keeps_self_drop_schema.
Qed.


(** ** The operations on a concrete client *)

Lemma to_schema_update_request_exhaustive_witness :
  exists cls,
    In (OtherChange cls)
      [SetProperty "k" "v"; OtherChange "RenameSchema"; RemoveProperty "k"] /\
    run (alter_schema spec_codec "s1"
           [SetProperty "k" "v"; OtherChange "RenameSchema"; RemoveProperty "k"])
      (fresh (example_client example_server)) =
    (inl (ValueError ("Unknown change type: " ++ cls)),
     fresh (example_client example_server)).
Proof.
  apply (proj2 (proj2 (proj2 (proj2 (proj2
           (to_schema_update_request_exhaustive spec_codec "s1"
              [SetProperty "k" "v"; OtherChange "RenameSchema"; RemoveProperty "k"]
              (fresh (example_client example_server)))))))).
  exists "RenameSchema". right. left. reflexivity.
Defined.

Lemma list_schemas_invalid_namespace_witness :
  List.length (schema_namespace (self (fresh (one_level_client example_server)))) <> 2 /\
  exists msg,
    run (list_schemas spec_codec) (fresh (one_level_client example_server)) =
    (inl (IllegalNamespaceException msg), fresh (one_level_client example_server)).
Proof.
  split.
  - simpl. discriminate.
  - apply (list_schemas_invalid_namespace spec_codec
             (fresh (one_level_client example_server))).
    simpl. discriminate.
Defined.

Lemma schema_request_paths_witness :
  format_schema_request_path ["m"; "c"] = inr "api/metalakes/m/catalogs/c/schemas" /\
  sent (snd (run (load_schema spec_codec "s1")
               (fresh (example_client example_server)))) =
  [mkRequest GET "api/metalakes/m/catalogs/c/schemas/s1" NoPayload []] /\
  sent (snd (run (alter_schema spec_codec "s1" [RemoveProperty "k"])
               (fresh (example_client example_server)))) =
  [mkRequest PUT "api/metalakes/m/catalogs/c/schemas/s1"
     (UpdatesPayload (mkSchemaUpdatesRequest [RemoveSchemaPropertyRequest "k"]))
     []] /\
  sent (snd (run (drop_schema_try spec_codec "s1" true)
               (fresh (example_client example_server)))) =
  [mkRequest DELETE "api/metalakes/m/catalogs/c/schemas/s1" NoPayload
     [("cascade", "True")]].
Proof.
  destruct (schema_request_paths spec_codec
              (fresh (example_client example_server)) "s1" "m" "c" eq_refl)
    as [Hbase [Hload [Halter Hdrop]]].
  split; [exact Hbase |]. split; [exact Hload |]. split.
  - exact (Halter [RemoveProperty "k"] [RemoveSchemaPropertyRequest "k"]
             eq_refl eq_refl).
  - exact (Hdrop true).
Defined.

Lemma alter_schema_empty_changes_validated_witness :
  sent (snd (run (alter_schema spec_codec "s1" [])
               (fresh (example_client example_server)))) =
  [mkRequest PUT "api/metalakes/m/catalogs/c/schemas/s1"
     (UpdatesPayload (mkSchemaUpdatesRequest [])) []] /\
  run (alter_schema strict_codec "s1" []) (fresh (example_client example_server)) =
  (inl (ValueError "Updates cannot be empty"),
   fresh (example_client example_server)).
Proof.
  split.
  - exact (proj1 (alter_schema_empty_changes_validated spec_codec
                    (fresh (example_client example_server)) "s1" "m" "c"
                    eq_refl) eq_refl).
  - exact (proj2 (alter_schema_empty_changes_validated strict_codec
                    (fresh (example_client example_server)) "s1" "m" "c"
                    eq_refl) (ValueError "Updates cannot be empty") eq_refl).
Defined.

(** With an update-list request that refuses an empty list, [alter_schema]
    on no changes raises and issues no PUT. *)
Lemma alter_schema_empty_changes_refused :
  fst (run (alter_schema strict_codec "s1" [])
         (fresh (example_client example_server))) =
  inl (ValueError "Updates cannot be empty") /\
  sent (snd (run (alter_schema strict_codec "s1" [])
               (fresh (example_client example_server)))) = [].
Proof. split; reflexivity. Qed.

Lemma create_schema_round_trip_witness :
  fst (run (create_schema spec_codec "s1" (Some "c") (Some [("k", "v")]))
         (fresh (example_client example_server))) =
  inr (mkSchema "s1" (Some "c") (Some [("k", "v")])
         (Some (mkAuditDTO (Some "anonymous") (Some "2024-04-01T00:00:00Z")
                  None None))).
Proof.
  exact (create_schema_round_trip spec_codec
           (fresh (example_client example_server))
           "s1" (Some "c") (Some [("k", "v")]) "m" "c"
           (mkResponse "schema: s1, c, k=v")
           (mkSchemaResponse 0
              (mkSchema "s1" (Some "c") (Some [("k", "v")])
                 (Some (mkAuditDTO (Some "anonymous")
                          (Some "2024-04-01T00:00:00Z") None None))))
           eq_refl eq_refl eq_refl eq_refl eq_refl).
Defined.



(** * Further properties of the module *)

(** ** Strings *)

Lemma string_append_assoc (s1 s2 s3 : string) :
  (s1 ++ s2) ++ s3 = s1 ++ (s2 ++ s3).
Proof.
  induction s1 as [| c s1 IH]; simpl; [reflexivity | rewrite IH; reflexivity].
Qed.

Lemma string_length_append (s t : string) :
  String.length (s ++ t) = String.length s + String.length t.
Proof.
  induction s as [| c s IH]; simpl; [reflexivity | rewrite IH; reflexivity].
Qed.

Lemma string_append_inj_l (p a b : string) : p ++ a = p ++ b -> a = b.
Proof.
  induction p as [| c p IH]; simpl; intros H; [exact H |].
  injection H as H. exact (IH H).
Qed.

Lemma string_append_inj_r (t : string) :
  forall s1 s2 : string, s1 ++ t = s2 ++ t -> s1 = s2.
Proof.
  induction s1 as [| c1 s1 IH]; intros [| c2 s2] H; simpl in H.
  - reflexivity.
  - apply (f_equal String.length) in H. simpl in H.
    rewrite string_length_append in H. lia.
  - apply (f_equal String.length) in H. simpl in H.
    rewrite string_length_append in H. lia.
  - injection H as -> H. rewrite (IH s2 H). reflexivity.
Qed.

(** A string free of slashes is recovered from what follows it: the first
    slash of the whole marks its end. *)
Lemma slash_free_prefix (r1 r2 : string) :
  forall s1 s2 : string,
    has_slash s1 = false -> has_slash s2 = false ->
    s1 ++ String "/" r1 = s2 ++ String "/" r2 ->
    s1 = s2 /\ r1 = r2.
Proof.
  induction s1 as [| c1 s1 IH]; intros [| c2 s2] H1 H2 H; simpl in *.
  - injection H as ->. split; reflexivity.
  - injection H as <- _. simpl in H2. discriminate.
  - injection H as -> _. simpl in H1. discriminate.
  - injection H as -> H.
    apply orb_false_iff in H1 as [_ H1]. apply orb_false_iff in H2 as [_ H2].
    destruct (IH s2 H1 H2 H) as [-> ->]. split; reflexivity.
Qed.

(** ** Counting requests *)

Section Counting.

Context {A B : Type}.

Lemma sends_le_ret (a : A) : sends_le 0 (ret a : Py A).
Proof. intros w. exists []. rewrite app_nil_r. repeat split; auto. Qed.

Lemma sends_le_raise (e : BaseException) : sends_le 0 (raise e : Py A).
Proof. intros w. exists []. rewrite app_nil_r. repeat split; auto. Qed.

Lemma sends_le_liftE (r : BaseException + A) : sends_le 0 (liftE r).
Proof.
  intros w. exists []. rewrite run_liftE, app_nil_r. repeat split; auto.
Qed.

Lemma sends_le_getattr_self (field : BaseSchemaCatalog -> A) :
  sends_le 0 (getattr_self field).
Proof. intros w. exists []. rewrite app_nil_r. repeat split; auto. Qed.

Lemma sends_le_bind (n m : nat) (c : Py A) (k : A -> Py B) :
  sends_le n c -> (forall a, sends_le m (k a)) -> sends_le (n + m) (bind c k).
Proof.
  intros Hc Hk w. rewrite run_bind. destruct (Hc w) as [l [Hl [Hn Hw]]].
  destruct (run c w) as [[e | a] w']; cbn [snd] in *.
  - exists l. repeat split; [exact Hl | lia | exact Hw].
  - destruct (Hk a w') as [l' [Hl' [Hm Hw']]].
    exists (l ++ l')%list. rewrite Hl', Hl, Hw', Hw, <- app_assoc, length_app.
    repeat split; lia.
Qed.

Lemma sends_le_try_except_Exception (n m : nat) (body handler : Py A) :
  sends_le n body -> sends_le m handler ->
  sends_le (n + m) (try_except_Exception body handler).
Proof.
  intros Hb Hh w. rewrite run_try_except_Exception.
  destruct (Hb w) as [l [Hl [Hn Hw]]].
  destruct (run body w) as [[e | a] w']; cbn [snd] in *.
  - destruct (is_Exception e); cbn [snd].
    + destruct (Hh w') as [l' [Hl' [Hm Hw']]].
      exists (l ++ l')%list. rewrite Hl', Hl, Hw', Hw, <- app_assoc, length_app.
      repeat split; lia.
    + exists l. repeat split; [exact Hl | lia | exact Hw].
  - exists l. repeat split; [exact Hl | lia | exact Hw].
Qed.

Lemma sends_le_weaken (n m : nat) (c : Py A) :
  sends_le n c -> n <= m -> sends_le m c.
Proof.
  intros Hc Hnm w. destruct (Hc w) as [l [Hl [Hn Hw]]].
  exists l. repeat split; [exact Hl | lia | exact Hw].
Qed.

End Counting.

Lemma sends_le_http_get rc p : sends_le 1 (http_get rc p).
Proof. intros w. rewrite run_http_get. eexists. repeat split; simpl; lia. Qed.

Lemma sends_le_http_post rc p req : sends_le 1 (http_post rc p req).
Proof. intros w. rewrite run_http_post. eexists. repeat split; simpl; lia. Qed.

Lemma sends_le_http_put rc p req : sends_le 1 (http_put rc p req).
Proof. intros w. rewrite run_http_put. eexists. repeat split; simpl; lia. Qed.

Lemma sends_le_http_delete rc p query : sends_le 1 (http_delete rc p query).
Proof. intros w. rewrite run_http_delete. eexists. repeat split; simpl; lia. Qed.

(** The handler of [drop_schema] stops at the name [ident]: it logs
    nothing. *)
Lemma run_drop_schema_except (w : World) :
  run drop_schema_except w = (inl (NameError "ident"), w).
Proof.
  unfold drop_schema_except. step_run. rewrite load_global_ident. reflexivity.
Qed.

Lemma sends_le_drop_schema_except : sends_le 0 drop_schema_except.
Proof.
  intros w. rewrite run_drop_schema_except. exists []. rewrite app_nil_r.
  repeat split; auto.
Qed.

Create HintDb count.

#[global] Hint Resolve sends_le_ret sends_le_raise sends_le_liftE
  sends_le_getattr_self sends_le_http_get sends_le_http_post sends_le_http_put
  sends_le_http_delete sends_le_drop_schema_except : count.

(** Walk down a method body, adding up what each statement may send. *)
Ltac count_requests :=
  eapply sends_le_weaken;
  [ repeat first
      [ solve [eauto with count]
      | eapply sends_le_try_except_Exception
      | eapply sends_le_bind; [| intros ?] ]
  | simpl; lia ].

(** ** Construction, then listing *)

(** X1. On a client built by [__init__] the namespace check of
    [list_schemas] always passes: the call issues one GET on
    api/metalakes/ + first level of the namespace + /catalogs/ + catalog
    name + /schemas, and its outcome is the decoding of the answer. *)
Theorem list_schemas_after_init (codec : Codec) (ns : Namespace)
  (name catalog_type : string) (provider comment : option string)
  (properties : option (list (string * string))) (audit : option AuditDTO)
  (rc : HTTPClient.t) (c : BaseSchemaCatalog)
  (sent0 : list Request) (warnings0 : list (string * PyObject)) :
  init ns name catalog_type provider comment properties audit rc = inr c ->
  exists level0,
    Namespace_level ns 0 = inr level0 /\
    let p := "api/metalakes/" ++ level0 ++ "/catalogs/" ++ name ++ "/schemas" in
    run (list_schemas codec) (mkWorld c sent0 warnings0) =
    (decode_entity_list codec (HTTPClient.get rc p),
     mkWorld c (sent0 ++ [mkRequest GET p NoPayload []]) warnings0).
Proof.
  intros Hinit.
  destruct (init_schema_namespace _ _ _ _ _ _ _ _ _ Hinit)
    as [level0 [Hl0 [Hsns [_ Hrc]]]].
  exists level0. split; [exact Hl0 |]. intros p.
  rewrite (run_list_schemas codec (mkWorld c sent0 warnings0) level0 name []
             Hsns eq_refl).
  cbn [self]. rewrite Hrc. reflexivity.
Qed.

(** ** Validation before the request *)

(** X2. When the create request fails its own validation, [create_schema]
    raises that error and the state is untouched: nothing was posted. *)
Theorem create_schema_invalid_request (codec : Codec) (w : World)
  (schema_name : string) (comment : option string)
  (properties : option (list (string * string))) (e : BaseException) :
  SchemaCreateRequest_validate codec
    (mkSchemaCreateRequest schema_name comment properties) = inl e ->
  run (create_schema codec schema_name comment properties) w = (inl e, w).
Proof.
  intros Hv. unfold create_schema. step_run. rewrite Hv. reflexivity.
Qed.

(** X3. [create_schema] checks no namespace shape: on any schema namespace
    with at least two levels, once the request validates, exactly one POST
    is issued, on the base path of the first two levels, and its body is the
    create request holding the three arguments as given. *)
Theorem create_schema_posts_arguments (codec : Codec) (w : World)
  (schema_name : string) (comment : option string)
  (properties : option (list (string * string)))
  (level0 level1 : string) (rest : list string) :
  schema_namespace (self w) = level0 :: level1 :: rest ->
  SchemaCreateRequest_validate codec
    (mkSchemaCreateRequest schema_name comment properties) = inr tt ->
  sent (snd (run (create_schema codec schema_name comment properties) w)) =
  (sent w ++
   [mkRequest POST
      ("api/metalakes/" ++ level0 ++ "/catalogs/" ++ level1 ++ "/schemas")
      (CreatePayload (mkSchemaCreateRequest schema_name comment properties))
      []])%list.
Proof.
  intros Hns Hv.
  rewrite (run_create_schema codec w level0 level1 rest Hns _ _ _ Hv).
  reflexivity.
Qed.

(** X4. When the changes are all supported but the update list fails its
    validation, [alter_schema] raises that error and the state is
    untouched: no PUT was issued. *)
Theorem alter_schema_invalid_updates (codec : Codec) (w : World)
  (schema_name : string) (changes : list SchemaChange)
  (reqs : list SchemaUpdateRequest) (e : BaseException) :
  list_comprehension to_schema_update_request changes = inr reqs ->
  SchemaUpdatesRequest_validate codec (mkSchemaUpdatesRequest reqs) = inl e ->
  run (alter_schema codec schema_name changes) w = (inl e, w).
Proof.
  intros Hmap Hv. unfold alter_schema. step_run. rewrite Hmap. step_run.
  rewrite Hv. reflexivity.
Qed.

Lemma list_comprehension_first_error {A B : Type} (f : A -> BaseException + B)
  (x : A) (e : BaseException) (post : list A) :
  f x = inl e ->
  forall pre : list A,
    (forall a, In a pre -> exists b, f a = inr b) ->
    list_comprehension f (pre ++ x :: post) = inl e.
Proof.
  intros Hx. induction pre as [| a pre IH]; intros Hpre; simpl.
  - rewrite Hx. reflexivity.
  - destruct (Hpre a (or_introl eq_refl)) as [b Hb]. rewrite Hb.
    rewrite IH; [reflexivity |]. intros a' Hin. apply Hpre. right. exact Hin.
Qed.

(** X5. The error of [alter_schema] names the first unsupported change:
    when the changes before it are supported, the call raises the
    unknown-change-type error on its class, whatever follows it, and
    nothing is sent. *)
Theorem alter_schema_first_unsupported_change (codec : Codec) (w : World)
  (schema_name : string) (pre post : list SchemaChange) (cls : string) :
  (forall change, In change pre ->
                  exists r, to_schema_update_request change = inr r) ->
  run (alter_schema codec schema_name (pre ++ OtherChange cls :: post)) w =
  (inl (ValueError ("Unknown change type: " ++ cls)), w).
Proof.
  intros Hpre. unfold alter_schema. step_run.
  rewrite (list_comprehension_first_error to_schema_update_request
             (OtherChange cls) (ValueError ("Unknown change type: " ++ cls))
             post eq_refl pre Hpre).
  reflexivity.
Qed.

(** ** Failures are passed on *)

(** X6. Outside [drop_schema] nothing is caught: an exception raised by the
    REST client leaves [list_schemas], [create_schema], [load_schema] and
    [alter_schema] as it is, whatever its class. *)
Theorem transport_errors_propagate (codec : Codec) (w : World)
  (level0 level1 : string) (e : BaseException) :
  schema_namespace (self w) = [level0; level1] ->
  let base := "api/metalakes/" ++ level0 ++ "/catalogs/" ++ level1 ++ "/schemas" in
  (HTTPClient.get (rest_client (self w)) base = inl e ->
   fst (run (list_schemas codec) w) = inl e) /\
  (forall schema_name comment properties,
      SchemaCreateRequest_validate codec
        (mkSchemaCreateRequest schema_name comment properties) = inr tt ->
      HTTPClient.post (rest_client (self w)) base
        (mkSchemaCreateRequest schema_name comment properties) = inl e ->
      fst (run (create_schema codec schema_name comment properties) w) = inl e) /\
  (forall schema_name,
      HTTPClient.get (rest_client (self w)) (base ++ "/" ++ schema_name) = inl e ->
      fst (run (load_schema codec schema_name) w) = inl e) /\
  (forall schema_name changes reqs,
      list_comprehension to_schema_update_request changes = inr reqs ->
      SchemaUpdatesRequest_validate codec (mkSchemaUpdatesRequest reqs) = inr tt ->
      HTTPClient.put (rest_client (self w)) (base ++ "/" ++ schema_name)
        (mkSchemaUpdatesRequest reqs) = inl e ->
      fst (run (alter_schema codec schema_name changes) w) = inl e).
Proof.
  intros Hns base. split; [| split; [| split]].
  - intros Hget.
    rewrite (run_list_schemas codec w level0 level1 [] Hns eq_refl).
    cbn [fst]. unfold base_path. fold base. rewrite Hget. reflexivity.
  - intros schema_name comment properties Hv Hpost.
    rewrite (run_create_schema codec w level0 level1 [] Hns _ _ _ Hv).
    cbn [fst]. unfold base_path. fold base. rewrite Hpost. reflexivity.
  - intros schema_name Hget.
    rewrite (run_load_schema codec w level0 level1 [] Hns).
    cbn [fst]. unfold base_path. fold base. rewrite Hget. reflexivity.
  - intros schema_name changes reqs Hmap Hv Hput.
    rewrite (run_alter_schema codec w level0 level1 [] Hns _ _ _ Hmap Hv).
    cbn [fst]. unfold base_path. fold base. rewrite Hput. reflexivity.
Qed.

(** X7. A response to the POST of [create_schema] that does not parse, or
    parses and does not validate, makes the call raise that error after the
    request has been issued: the POST stays in the record of what was
    sent. *)
Theorem create_schema_invalid_response (codec : Codec) (w : World)
  (schema_name : string) (comment : option string)
  (properties : option (list (string * string)))
  (level0 level1 : string) (resp : Response) (e : BaseException) :
  schema_namespace (self w) = [level0; level1] ->
  SchemaCreateRequest_validate codec
    (mkSchemaCreateRequest schema_name comment properties) = inr tt ->
  HTTPClient.post (rest_client (self w))
    ("api/metalakes/" ++ level0 ++ "/catalogs/" ++ level1 ++ "/schemas")
    (mkSchemaCreateRequest schema_name comment properties) = inr resp ->
  (SchemaResponse_from_json codec (body resp) = inl e \/
   exists schema_response,
     SchemaResponse_from_json codec (body resp) = inr schema_response /\
     SchemaResponse_validate codec schema_response = inl e) ->
  run (create_schema codec schema_name comment properties) w =
  (inl e,
   mkWorld (self w)
     (sent w ++
      [mkRequest POST
         ("api/metalakes/" ++ level0 ++ "/catalogs/" ++ level1 ++ "/schemas")
         (CreatePayload (mkSchemaCreateRequest schema_name comment properties))
         []])
     (warnings w)).
Proof.
  intros Hns Hv Hpost Hbad.
  rewrite (run_create_schema codec w level0 level1 [] Hns _ _ _ Hv).
  unfold base_path. rewrite Hpost. cbn [decode_schema].
  destruct Hbad as [Hjson | [sr [Hjson Hval]]].
  - rewrite Hjson. reflexivity.
  - rewrite Hjson, Hval. reflexivity.
Qed.

(** ** One request per call *)

(** X8. No operation retries or fans out: whatever the state, the arguments
    and the answers, a call adds at most one request to those already
    issued, keeps the earlier ones in place, and logs no warning. *)
Theorem operations_send_at_most_one_request (codec : Codec) :
  sends_le 1 (list_schemas codec) /\
  (forall schema_name comment properties,
      sends_le 1 (create_schema codec schema_name comment properties)) /\
  (forall schema_name, sends_le 1 (load_schema codec schema_name)) /\
  (forall schema_name changes,
      sends_le 1 (alter_schema codec schema_name changes)) /\
  (forall schema_name cascade,
      sends_le 1 (drop_schema_try_statement codec schema_name cascade)) /\
  (forall schema_name cascade,
      sends_le 1 (drop_schema codec schema_name cascade)).
Proof.
  split; [| split; [| split; [| split; [| split]]]]; intros.
  - unfold list_schemas. count_requests.
  - unfold create_schema. count_requests.
  - unfold load_schema. count_requests.
  - unfold alter_schema. count_requests.
  - unfold drop_schema_try_statement, drop_schema_try. count_requests.
  - unfold drop_schema, drop_schema_try_statement, drop_schema_try.
    count_requests.
Qed.

(** ** The [try] statement of [drop_schema] *)

(** X9. Taken alone, the [try] statement of [drop_schema] returns a boolean
    only when the DELETE was answered and the answer parsed and validated;
    the boolean is then the [dropped] flag of that answer.  No failure is
    turned into [False]. *)
Theorem drop_schema_try_statement_result (codec : Codec) (w : World)
  (schema_name : string) (cascade b : bool) :
  fst (run (drop_schema_try_statement codec schema_name cascade) w) = inr b ->
  exists level0 level1 rest resp drop_resp,
    schema_namespace (self w) = level0 :: level1 :: rest /\
    HTTPClient.delete (rest_client (self w))
      (("api/metalakes/" ++ level0 ++ "/catalogs/" ++ level1 ++ "/schemas")
       ++ "/" ++ schema_name)
      [("cascade", str_bool cascade)] = inr resp /\
    DropResponse_from_json codec (body resp) = inr drop_resp /\
    DropResponse_validate codec drop_resp = inr tt /\
    dropped drop_resp = b.
Proof.
  unfold drop_schema_try_statement. rewrite run_try_except_Exception.
  assert (Hcaught : forall (e : BaseException) (w' : World),
             fst (if is_Exception e then run drop_schema_except w'
                  else (inl e, w')) = inr b -> False).
  { intros e w'. destruct (is_Exception e).
    - rewrite run_drop_schema_except. discriminate.
    - discriminate. }
  destruct (schema_namespace (self w)) as [| level0 [| level1 rest]] eqn:Hns.
  - unfold drop_schema_try. step_run. rewrite Hns. cbn. intros H.
    discriminate.
  - unfold drop_schema_try. step_run. rewrite Hns. cbn. intros H.
    discriminate.
  - rewrite (run_drop_schema_try codec w level0 level1 rest Hns).
    unfold base_path, decode_drop.
    destruct (HTTPClient.delete _ _ _) as [e | resp] eqn:Hdel;
      [intros H; destruct (Hcaught _ _ H) |].
    destruct (DropResponse_from_json codec (body resp)) as [e | dr] eqn:Hjson;
      [intros H; destruct (Hcaught _ _ H) |].
    destruct (DropResponse_validate codec dr) as [e | []] eqn:Hval;
      [intros H; destruct (Hcaught _ _ H) |].
    cbn [fst]. intros H. injection H as <-.
    exists level0, level1, rest, resp, dr. repeat split; assumption.
Qed.

(** ** Request paths *)

(** X10. [format_schema_request_path] succeeds exactly on the namespaces
    with at least two levels, and levels after the second do not change the
    path. *)
Theorem format_schema_request_path_defined (ns : Namespace) :
  ((exists p, format_schema_request_path ns = inr p) <-> 2 <= List.length ns) /\
  (forall level0 level1 rest,
      ns = level0 :: level1 :: rest ->
      format_schema_request_path ns = format_schema_request_path [level0; level1]).
Proof.
  split.
  - split.
    + intros [p Hp]. destruct ns as [| l0 [| l1 rest]]; simpl in *;
        try discriminate. lia.
    + intros Hlen. destruct ns as [| l0 [| l1 rest]]; simpl in Hlen; try lia.
      eexists. reflexivity.
  - intros level0 level1 rest ->. reflexivity.
Qed.

(** X11. The levels are not escaped: a slash inside a level moves the
    boundary between metalake and catalog, so that two different namespaces
    get the same path. *)
Theorem format_schema_request_path_collision (a b c : string) :
  format_schema_request_path [a ++ "/catalogs/" ++ b; c] =
  format_schema_request_path [a; b ++ "/catalogs/" ++ c].
Proof.
  unfold format_schema_request_path. cbn [Namespace_level nth_error].
  f_equal. f_equal. rewrite !string_append_assoc. reflexivity.
Qed.

(** X12. When the metalake level holds no slash the path determines the
    namespace: two 2-level namespaces with the same path have the same
    levels. *)
Theorem format_schema_request_path_injective (level0 level1 level0' level1' : string) :
  has_slash level0 = false -> has_slash level0' = false ->
  format_schema_request_path [level0; level1] =
  format_schema_request_path [level0'; level1'] ->
  level0 = level0' /\ level1 = level1'.
Proof.
  intros H0 H0' H. unfold format_schema_request_path in H.
  cbn [Namespace_level nth_error] in H. injection H as H.
  destruct (slash_free_prefix _ _ _ _ H0 H0' H) as [-> Hrest].
  split; [reflexivity |].
  injection Hrest as Hrest. exact (string_append_inj_r _ _ _ Hrest).
Qed.

(** X13. Within one client two schema names are never conflated: if
    [load_schema] issues the same request for two names, the names are
    equal. *)
Theorem load_schema_request_determines_name (codec : Codec) (w : World)
  (name1 name2 level0 level1 : string) (rest : list string) :
  schema_namespace (self w) = level0 :: level1 :: rest ->
  sent (snd (run (load_schema codec name1) w)) =
  sent (snd (run (load_schema codec name2) w)) ->
  name1 = name2.
Proof.
  intros Hns.
  rewrite !(run_load_schema codec w level0 level1 rest Hns).
  cbn [snd issue sent]. intros H. apply app_inv_head in H.
  injection H as H. apply string_append_inj_l in H.
  injection H as H. exact H.
Qed.

(** ** The mapping loses nothing *)

Lemma request_of_injective (c1 c2 : SchemaChange) (r : SchemaUpdateRequest) :
  request_of c1 r -> request_of c2 r -> c1 = c2.
Proof.
  intros H1 H2. destruct H1; inversion H2; reflexivity.
Qed.

(** X14. The update requests built by [alter_schema] determine the changes
    they were built from: two sequences of changes mapped to the same
    sequence of requests are the same sequence. *)
Theorem requests_determine_changes (changes1 changes2 : list SchemaChange)
  (reqs : list SchemaUpdateRequest) :
  list_comprehension to_schema_update_request changes1 = inr reqs ->
  list_comprehension to_schema_update_request changes2 = inr reqs ->
  changes1 = changes2.
Proof.
  intros H1 H2. apply requests_of_changes in H1. apply requests_of_changes in H2.
  revert changes2 H2.
  induction H1 as [| c1 r cs1 rs Hc1 _ IH]; intros changes2 H2;
    inversion H2 as [| c2 r' cs2 rs' Hc2 Hrest]; subst.
  - reflexivity.
  - rewrite (request_of_injective c1 c2 r Hc1 Hc2), (IH cs2 Hrest). reflexivity.
Qed.

(** ** Two calls in a row *)

(** X16. A call leaves nothing behind that a later call reads except the
    record of what was sent: [create_schema] followed by [load_schema] of the
    same name on the same client issues the POST on the base path and then
    the GET on the per-schema path, in that order, and the outcome is the
    decoding of the answer to the GET. *)
Theorem create_schema_then_load_schema (codec : Codec) (w : World)
  (schema_name : string) (comment : option string)
  (properties : option (list (string * string))) (level0 level1 : string)
  (created : Schema) :
  schema_namespace (self w) = [level0; level1] ->
  SchemaCreateRequest_validate codec
    (mkSchemaCreateRequest schema_name comment properties) = inr tt ->
  decode_schema codec
    (HTTPClient.post (rest_client (self w))
       ("api/metalakes/" ++ level0 ++ "/catalogs/" ++ level1 ++ "/schemas")
       (mkSchemaCreateRequest schema_name comment properties)) = inr created ->
  let base := "api/metalakes/" ++ level0 ++ "/catalogs/" ++ level1 ++ "/schemas" in
  run (_ <- create_schema codec schema_name comment properties ;;
       load_schema codec schema_name) w =
  (decode_schema codec
     (HTTPClient.get (rest_client (self w)) (base ++ "/" ++ schema_name)),
   mkWorld (self w)
     (sent w ++
      [mkRequest POST base
         (CreatePayload (mkSchemaCreateRequest schema_name comment properties))
         [];
       mkRequest GET (base ++ "/" ++ schema_name) NoPayload []])
     (warnings w)).
Proof.
  intros Hns Hv Hcreated base. rewrite run_bind.
  rewrite (run_create_schema codec w level0 level1 [] Hns _ _ _ Hv).
  unfold base_path. fold base. fold base in Hcreated. rewrite Hcreated.
  match goal with
  | |- context [run (load_schema _ _) ?w'] =>
      rewrite (run_load_schema codec w' level0 level1 [] Hns)
  end.
  unfold base_path, issue. fold base. cbn [self sent warnings].
  rewrite <- app_assoc. reflexivity.
Qed.

(** ** The further properties on concrete clients *)

Lemma list_schemas_after_init_witness :
  init ["m"] "c" "RELATIONAL" (Some "hive") None None None example_server =
  inr (example_client example_server) /\
  run (list_schemas spec_codec) (mkWorld (example_client example_server) [] []) =
  (inr ["m.c.s1"; "m.c.s2"],
   mkWorld (example_client example_server)
     [mkRequest GET "api/metalakes/m/catalogs/c/schemas" NoPayload []] []).
Proof.
  split; [reflexivity |].
  destruct (list_schemas_after_init spec_codec ["m"] "c" "RELATIONAL"
              (Some "hive") None None None example_server
              (example_client example_server) [] []
              (eq_refl : init ["m"] "c" "RELATIONAL" (Some "hive") None None None
                           example_server = inr (example_client example_server)))
    as [level0 [Hlevel0 Hrun]].
  simpl in Hlevel0. injection Hlevel0 as <-. exact Hrun.
Defined.

Lemma list_schemas_maps_str_witness :
  fst (run (list_schemas spec_codec) (fresh (example_client example_server))) =
  inr ["m.c.s1"; "m.c.s2"].
Proof.
  exact (list_schemas_maps_str spec_codec
           (fresh (example_client example_server)) "m" "c"
           (mkResponse "identifiers: m.c.s1, m.c.s2")
           (mkEntityListResponse 0
              [mkNameIdentifier ["m"; "c"] "s1"; mkNameIdentifier ["m"; "c"] "s2"])
           eq_refl eq_refl eq_refl eq_refl).
Defined.

Lemma create_schema_invalid_request_witness :
  run (create_schema spec_codec "" None None)
    (fresh (example_client example_server)) =
  (inl (ValueError "name is required"), fresh (example_client example_server)).
Proof.
  exact (create_schema_invalid_request spec_codec
           (fresh (example_client example_server)) "" None None
           (ValueError "name is required") eq_refl).
Defined.

Lemma create_schema_posts_arguments_witness :
  sent (snd (run (create_schema spec_codec "s1" (Some "c") (Some [("k", "v")]))
               (fresh (example_client example_server)))) =
  [mkRequest POST "api/metalakes/m/catalogs/c/schemas"
     (CreatePayload (mkSchemaCreateRequest "s1" (Some "c") (Some [("k", "v")])))
     []].
Proof.
  exact (create_schema_posts_arguments spec_codec
           (fresh (example_client example_server))
           "s1" (Some "c") (Some [("k", "v")]) "m" "c" [] eq_refl eq_refl).
Defined.

Lemma alter_schema_invalid_updates_witness :
  run (alter_schema strict_codec "s1" []) (fresh (example_client example_server)) =
  (inl (ValueError "Updates cannot be empty"),
   fresh (example_client example_server)).
Proof.
  exact (alter_schema_invalid_updates strict_codec
           (fresh (example_client example_server)) "s1" [] []
           (ValueError "Updates cannot be empty") eq_refl eq_refl).
Defined.

Lemma alter_schema_first_unsupported_change_witness :
  run (alter_schema spec_codec "s1"
         [SetProperty "k" "v"; OtherChange "RenameSchema"; OtherChange "Other"])
    (fresh (example_client example_server)) =
  (inl (ValueError "Unknown change type: RenameSchema"),
   fresh (example_client example_server)).
Proof.
  apply (alter_schema_first_unsupported_change spec_codec
           (fresh (example_client example_server)) "s1"
           [SetProperty "k" "v"] [OtherChange "Other"] "RenameSchema").
  intros change [<- | []]. eexists. reflexivity.
Defined.

Lemma transport_errors_propagate_witness :
  fst (run (list_schemas spec_codec) (fresh (example_client unreachable_server))) =
  inl (Raised "ConnectionError" "connection refused") /\
  fst (run (create_schema spec_codec "s1" None None)
         (fresh (example_client unreachable_server))) =
  inl (Raised "ConnectionError" "connection refused") /\
  fst (run (load_schema spec_codec "s1")
         (fresh (example_client unreachable_server))) =
  inl (Raised "ConnectionError" "connection refused") /\
  fst (run (alter_schema spec_codec "s1" [RemoveProperty "k"])
         (fresh (example_client unreachable_server))) =
  inl (Raised "ConnectionError" "connection refused").
Proof.
  destruct (transport_errors_propagate spec_codec
              (fresh (example_client unreachable_server)) "m" "c"
              (Raised "ConnectionError" "connection refused") eq_refl)
    as [Hlist [Hcreate [Hload Halter]]].
  split; [exact (Hlist eq_refl) |].
  split; [exact (Hcreate "s1" None None eq_refl eq_refl) |].
  split; [exact (Hload "s1" eq_refl) |].
  exact (Halter "s1" [RemoveProperty "k"] [RemoveSchemaPropertyRequest "k"]
           eq_refl eq_refl eq_refl).
Defined.

Lemma create_schema_invalid_response_witness :
  run (create_schema spec_codec "s1" None None)
    (fresh (example_client garbled_server)) =
  (inl (Raised "JSONDecodeError" "<html>"),
   mkWorld (example_client garbled_server)
     [mkRequest POST "api/metalakes/m/catalogs/c/schemas"
        (CreatePayload (mkSchemaCreateRequest "s1" None None)) []]
     []).
Proof.
  exact (create_schema_invalid_response spec_codec
           (fresh (example_client garbled_server)) "s1" None None "m" "c"
           (mkResponse "<html>") (Raised "JSONDecodeError" "<html>")
           eq_refl eq_refl eq_refl (or_introl eq_refl)).
Defined.

Lemma drop_schema_try_statement_result_witness :
  exists level0 level1 rest resp drop_resp,
    schema_namespace (self (fresh (example_client example_server))) =
    level0 :: level1 :: rest /\
    HTTPClient.delete example_server
      (("api/metalakes/" ++ level0 ++ "/catalogs/" ++ level1 ++ "/schemas")
       ++ "/" ++ "s1")
      [("cascade", "False")] = inr resp /\
    DropResponse_from_json spec_codec (body resp) = inr drop_resp /\
    DropResponse_validate spec_codec drop_resp = inr tt /\
    dropped drop_resp = true.
Proof.
  exact (drop_schema_try_statement_result spec_codec
           (fresh (example_client example_server)) "s1" false true eq_refl).
Defined.

Lemma format_schema_request_path_defined_witness :
  exists p, format_schema_request_path ["m"; "c"; "extra"] = inr p.
Proof.
  apply (proj2 (proj1 (format_schema_request_path_defined ["m"; "c"; "extra"]))).
  simpl. lia.
Defined.

Lemma format_schema_request_path_injective_witness :
  "m" = "m" /\ "c/d" = "c/d".
Proof.
  exact (format_schema_request_path_injective "m" "c/d" "m" "c/d"
           eq_refl eq_refl eq_refl).
Defined.

Lemma load_schema_request_determines_name_witness : "s1" = "s1".
Proof.
  exact (load_schema_request_determines_name spec_codec
           (fresh (example_client example_server)) "s1" "s1" "m" "c" []
           eq_refl eq_refl).
Defined.

Lemma requests_determine_changes_witness :
  [SetProperty "k" "v"; RemoveProperty "k"] =
  [SetProperty "k" "v"; RemoveProperty "k"].
Proof.
  exact (requests_determine_changes
           [SetProperty "k" "v"; RemoveProperty "k"]
           [SetProperty "k" "v"; RemoveProperty "k"]
           [SetSchemaPropertyRequest "k" "v"; RemoveSchemaPropertyRequest "k"]
           eq_refl eq_refl).
Defined.

Lemma create_schema_then_load_schema_witness :
  run (_ <- create_schema spec_codec "s1" (Some "c") (Some [("k", "v")]) ;;
       load_schema spec_codec "s1") (fresh (example_client example_server)) =
  (inr (mkSchema "s1" (Some "c") (Some [("k", "v")])
          (Some (mkAuditDTO (Some "anonymous") (Some "2024-04-01T00:00:00Z")
                   None None))),
   mkWorld (example_client example_server)
     [mkRequest POST "api/metalakes/m/catalogs/c/schemas"
        (CreatePayload (mkSchemaCreateRequest "s1" (Some "c") (Some [("k", "v")])))
        [];
      mkRequest GET "api/metalakes/m/catalogs/c/schemas/s1" NoPayload []]
     []).
Proof.
  exact (create_schema_then_load_schema spec_codec
           (fresh (example_client example_server))
           "s1" (Some "c") (Some [("k", "v")]) "m" "c"
           (mkSchema "s1" (Some "c") (Some [("k", "v")])
              (Some (mkAuditDTO (Some "anonymous") (Some "2024-04-01T00:00:00Z")
                       None None)))
           eq_refl eq_refl eq_refl).
Defined.
